(** * task.js: keyboard shortcuts and submit activation for the assessment form

    A shallow embedding of [src/eagle_eye/app/static/task.js] and the
    properties of its two listeners.

    The script has two parts.  A [DOMContentLoaded] listener looks up the
    element with id [submit], scans every [input] element, enables the
    submit element when an input is checked and attaches to each input a
    click listener that enables it.  A [keydown] listener maps the arrow
    keys and the number keys to one of the elements named [assessment],
    which it focuses and clicks.

    The document is a list of elements in tree order and a node is a
    position in it.  The script runs in a world that holds the document,
    the click listeners registered so far, the calls of [focus()] and
    [click()] made so far, the console and the errors the event loop
    reported.  Script code is a computation over the world that returns a
    value or throws.

    The page is the one the script loads on: its elements neither come nor
    go afterwards, and the script itself only writes [disabled] flags.  An
    event of the machine is one the browser dispatches: the page has
    loaded, a click reaches a node, a key goes down. *)

From Stdlib Require Import List ZArith NArith Bool String Ascii Lia.
Import ListNotations.

Local Open Scope Z_scope.

(* ===================================================================== *)
(** ** JavaScript values the script uses *)
(* ===================================================================== *)

Module JS.

(** A string is a sequence of UTF-16 code units. *)
Definition code_unit := N.
Definition jsstring := list code_unit.

(** The string literal [s] of the script, one code unit per character. *)
Definition units (s : string) : jsstring :=
  map N_of_ascii (list_ascii_of_string s).

(** [a === b] on strings: the same code units in the same order. *)
Fixpoint strict_eq (a b : jsstring) : bool :=
  match a, b with
  | [], [] => true
  | x :: a', y :: b' => N.eqb x y && strict_eq a' b'
  | _, _ => false
  end.

(** A number as the script meets it: [NaN], or an integer.  [parseInt]
    yields the double nearest to the integer it reads; rounding is monotone
    and exact below 2^53, and the script only compares the result with 0
    and with the length of a node list and subtracts 1 inside that range,
    so the integer itself decides the same branches.  [-0] is [Num 0]: the
    two zeros compare alike. *)
Inductive number : Type :=
| NaN
| Num (z : Z).

(** [x > k], [x <= k] and [x - k] with a finite right operand: every
    comparison with [NaN] is false, and [NaN - k] is [NaN]. *)
Definition gt (x : number) (k : Z) : bool :=
  match x with NaN => false | Num z => k <? z end.

Definition le (x : number) (k : Z) : bool :=
  match x with NaN => false | Num z => z <=? k end.

Definition sub (x : number) (k : Z) : number :=
  match x with NaN => NaN | Num z => Num (z - k) end.

(** White space and line terminators, the code units [parseInt] skips at
    the start of its argument: TAB, LF, VT, FF, CR, SP, NBSP, the other
    space separators and ZWNBSP. *)
Definition is_white_space (c : code_unit) : bool :=
  (existsb (N.eqb c)
     [0x09; 0x0A; 0x0B; 0x0C; 0x0D; 0x20; 0xA0; 0x1680; 0x2028; 0x2029;
      0x202F; 0x205F; 0x3000; 0xFEFF]
   || (N.leb 0x2000 c && N.leb c 0x200A))%N%bool.

Fixpoint trim_start (s : jsstring) : jsstring :=
  match s with
  | c :: s' => if is_white_space c then trim_start s' else s
  | [] => []
  end.

(** The value of a code unit as a digit: [0-9], then [a-z] or [A-Z] for
    ten to thirty-five. *)
Definition digit_value (c : code_unit) : option Z :=
  if (N.leb 48 c && N.leb c 57)%N then Some (Z.of_N c - 48)
  else if (N.leb 97 c && N.leb c 122)%N then Some (Z.of_N c - 87)
  else if (N.leb 65 c && N.leb c 90)%N then Some (Z.of_N c - 55)
  else None.

(** The digits of radix [R] at the start of [s], up to the first code unit
    that is not one. *)
Fixpoint leading_digits (R : Z) (s : jsstring) : list Z :=
  match s with
  | [] => []
  | c :: s' =>
      match digit_value c with
      | Some d => if d <? R then d :: leading_digits R s' else []
      | None => []
      end
  end.

Definition digits_value (R : Z) (ds : list Z) : Z :=
  fold_left (fun acc d => acc * R + d) ds 0.

(** [parseInt(string)] with no radix: skip white space, read a sign, read
    a [0x] or [0X] prefix (radix 16, else 10), read the longest run of
    digits; [NaN] when there is none.  It never throws. *)
Definition parseInt (input : jsstring) : number :=
  let s := trim_start input in
  let sign := match s with 45%N :: _ => -1 | _ => 1 end in
  let s :=
    match s with
    | c :: s' => if (N.eqb c 43 || N.eqb c 45)%N then s' else s
    | [] => s
    end in
  let '(R, s) :=
    match s with
    | 48%N :: x :: s' =>
        if (N.eqb x 120 || N.eqb x 88)%N then (16, s') else (10, s)
    | _ => (10, s)
    end in
  match leading_digits R s with
  | [] => NaN
  | ds => Num (sign * digits_value R ds)
  end.

End JS.

Import JS.

(* ===================================================================== *)
(** ** The document *)
(* ===================================================================== *)

(** An element, with the attributes and properties the script reads or
    writes.  An attribute that is absent is the empty string. *)
Record element : Type := mkElement {
  el_id : string;
  localName : string;
  el_name : string;
  checked : bool;
  disabled : bool
}.

(** The elements of the page in tree order; a node is a position. *)
Definition document := list element.
Definition node := nat.

(** The positions from [k] on of the elements that satisfy [p]. *)
Fixpoint select_from (k : node) (p : element -> bool) (d : document)
  : list node :=
  match d with
  | [] => []
  | e :: d' =>
      if p e then k :: select_from (S k) p d' else select_from (S k) p d'
  end.

(** [document.getElementById(i)]: the first element with that id, or
    [null]. *)
Definition getElementById (d : document) (i : string) : option node :=
  hd_error (select_from O (fun e => String.eqb (el_id e) i) d).

(** [document.querySelectorAll(tag)] for a type selector. *)
Definition querySelectorAll (d : document) (tag : string) : list node :=
  select_from O (fun e => String.eqb (localName e) tag) d.

(** [document.getElementsByName(n)]. *)
Definition getElementsByName (d : document) (n : string) : list node :=
  select_from O (fun e => String.eqb (el_name e) n) d.

(** [list[i]] on a node list: the node at an index inside the list,
    [undefined] anywhere else. *)
Definition item (l : list node) (i : Z) : option node :=
  if i <? 0 then None else nth_error l (Z.to_nat i).

Definition item_number (l : list node) (i : number) : option node :=
  match i with NaN => None | Num z => item l z end.

(** The document with [f] applied to the element at position [n]. *)
Fixpoint update (n : node) (f : element -> element) (d : document)
  : document :=
  match d, n with
  | [], _ => []
  | e :: d', O => f e :: d'
  | e :: d', S n' => e :: update n' f d'
  end.

Definition with_disabled (b : bool) (e : element) : element :=
  mkElement (el_id e) (localName e) (el_name e) (checked e) b.

(** A form control that is disabled: [click()] on it dispatches nothing. *)
Definition is_form_control (e : element) : bool :=
  existsb (String.eqb (localName e))
    ["button"; "input"; "select"; "textarea"]%string.

Definition disabled_control (d : document) (n : node) : bool :=
  match nth_error d n with
  | Some e => is_form_control e && disabled e
  | None => false
  end.

(* ===================================================================== *)
(** ** The world and computations over it *)
(* ===================================================================== *)

Inductive action : Type :=
| Focus (n : node)
| Click (n : node).

Inductive exn : Type :=
| TypeError.

(** A click listener of the script is the closure
    [() => { submitButton.disabled = false; }]; it is known by the value of
    [submitButton] it captured, [None] for [null]. *)
Definition closure := option node.

Record world : Type := mkWorld {
  dom : document;
  listeners : list (node * closure);
  calls : list action;
  console : list exn;
  reported : list exn
}.

Definition initial_world (d : document) : world :=
  mkWorld d [] [] [] [].

Inductive result (A : Type) : Type :=
| Return (a : A)
| Throw (e : exn).
Arguments Return {A} a.
Arguments Throw {A} e.

(** A computation keeps what it did to the world when it throws. *)
Definition M (A : Type) : Type := world -> result A * world.

Definition ret {A} (a : A) : M A := fun w => (Return a, w).

Definition throw {A} (e : exn) : M A := fun w => (Throw e, w).

Definition bind {A B} (m : M A) (k : A -> M B) : M B :=
  fun w =>
    match m w with
    | (Return a, w') => k a w'
    | (Throw e, w') => (Throw e, w')
    end.

Definition try_catch {A} (m : M A) (h : exn -> M A) : M A :=
  fun w =>
    match m w with
    | (Return a, w') => (Return a, w')
    | (Throw e, w') => h e w'
    end.

Definition gets {A} (f : world -> A) : M A := fun w => (Return (f w), w).

Definition modify (f : world -> world) : M unit :=
  fun w => (Return tt, f w).

Declare Scope js_scope.
Delimit Scope js_scope with js.
Notation "x <- c ;; k" := (bind c (fun x => k))
  (at level 61, c at next level, right associativity) : js_scope.
Notation "c ;;; k" := (bind c (fun _ => k))
  (at level 61, right associativity) : js_scope.
Local Open Scope js_scope.

(** [for (const x of xs) body]. *)
Fixpoint for_of {A} (xs : list A) (body : A -> M unit) : M unit :=
  match xs with
  | [] => ret tt
  | x :: xs' => body x ;;; for_of xs' body
  end.

Definition set_dom (d : document) (w : world) : world :=
  mkWorld d (listeners w) (calls w) (console w) (reported w).

Definition add_listener (n : node) (c : closure) (w : world) : world :=
  mkWorld (dom w) (listeners w ++ [(n, c)]) (calls w) (console w)
    (reported w).

Definition record_call (a : action) (w : world) : world :=
  mkWorld (dom w) (listeners w) (calls w ++ [a]) (console w) (reported w).

Definition log (e : exn) (w : world) : world :=
  mkWorld (dom w) (listeners w) (calls w) (console w ++ [e]) (reported w).

Definition report (e : exn) (w : world) : world :=
  mkWorld (dom w) (listeners w) (calls w) (console w) (reported w ++ [e]).

(** [target.checked]; reading a property of [null] or [undefined] throws. *)
Definition get_checked (target : option node) : M bool :=
  match target with
  | None => throw TypeError
  | Some n =>
      fun w =>
        match nth_error (dom w) n with
        | Some e => (Return (checked e), w)
        | None => (Throw TypeError, w)
        end
  end.

(** [target.disabled = b]; writing a property of [null] throws. *)
Definition set_disabled (target : option node) (b : bool) : M unit :=
  match target with
  | None => throw TypeError
  | Some n => modify (fun w => set_dom (update n (with_disabled b) (dom w)) w)
  end.

(** [console.log(e)]. *)
Definition console_log (e : exn) : M unit := modify (log e).

(** The event loop runs a listener to its end; what the listener throws is
    reported and goes no further. *)
Definition run_listener (h : M unit) (w : world) : world :=
  match h w with
  | (Return _, w') => w'
  | (Throw e, w') => report e w'
  end.

(** The click listener of the script, with the [submitButton] it
    captured. *)
Definition on_click (submitButton : closure) : M unit :=
  set_disabled submitButton false.

(** The listeners of [ls] that are registered on node [n] run in the order
    they were added. *)
Definition run_click_listeners (n : node) (ls : list (node * closure))
    (w : world) : world :=
  fold_left
    (fun w' l => if Nat.eqb (fst l) n then run_listener (on_click (snd l)) w'
                 else w')
    ls w.

(** A click event at node [n] runs the listeners registered on [n] when the
    event starts. *)
Definition dispatch_click (n : node) (w : world) : world :=
  run_click_listeners n (listeners w) w.

(** [target.addEventListener('click', listener)]. *)
Definition addEventListener (target : node) (c : closure) : M unit :=
  modify (add_listener target c).

(** [target.focus()]. *)
Definition focus (target : option node) : M unit :=
  match target with
  | None => throw TypeError
  | Some n => modify (record_call (Focus n))
  end.

(** [target.click()]: a click event at the target, unless the target is a
    disabled form control. *)
Definition click (target : option node) : M unit :=
  match target with
  | None => throw TypeError
  | Some n =>
      modify (fun w =>
        let w1 := record_call (Click n) w in
        if disabled_control (dom w1) n then w1 else dispatch_click n w1)
  end.

(* ===================================================================== *)
(** ** The script *)
(* ===================================================================== *)

(** The listener of [DOMContentLoaded] (lines 17 to 28). *)
Definition on_DOMContentLoaded : M unit :=
  submitButton <- gets (fun w => getElementById (dom w) "submit") ;;
  radioButtons <- gets (fun w => querySelectorAll (dom w) "input") ;;
  for_of radioButtons (fun radioButton =>
    c <- get_checked (Some radioButton) ;;
    (if c then set_disabled submitButton false else ret tt) ;;;
    addEventListener radioButton submitButton).

(** The constants of lines 31 and 32, computed once when the script loads.
    [inputButtons] itself is a live node list, read from the document each
    time it is used. *)
Record globals : Type := mkGlobals {
  inputButtonsLength : Z;
  inputButtonsHalfLength : Z
}.

Definition inputButtons (d : document) : list node :=
  getElementsByName d "assessment".

Definition script_load (d : document) : globals :=
  let len := Z.of_nat (List.length (inputButtons d)) in
  mkGlobals len (len / 2).

(** The body of the [try] block (lines 56 to 61). *)
Definition number_key (keyName : jsstring) : M unit :=
  let keyNumberValue := parseInt keyName in
  len <- gets (fun w => Z.of_nat (List.length (inputButtons (dom w)))) ;;
  if gt keyNumberValue 0 && le keyNumberValue len
  then
    button <- gets (fun w =>
      item_number (inputButtons (dom w)) (sub keyNumberValue 1)) ;;
    focus button ;;;
    click button
  else ret tt.

(** The listener of [keydown] (lines 36 to 66). *)
Definition on_keydown (g : globals) (keyName : jsstring) : M unit :=
  if strict_eq keyName (units "ArrowDown") && (0 <? inputButtonsLength g)
  then
    inputButton <- gets (fun w =>
      item (inputButtons (dom w)) (inputButtonsHalfLength g)) ;;
    focus inputButton ;;;
    click inputButton
  else if strict_eq keyName (units "ArrowLeft") && (1 <? inputButtonsLength g)
  then
    inputButton <- gets (fun w =>
      item (inputButtons (dom w)) (inputButtonsHalfLength g - 1)) ;;
    focus inputButton ;;;
    click inputButton
  else if strict_eq keyName (units "ArrowRight") && (2 <? inputButtonsLength g)
  then
    inputButton <- gets (fun w =>
      item (inputButtons (dom w)) (inputButtonsHalfLength g + 1)) ;;
    focus inputButton ;;;
    click inputButton
  else
    try_catch (number_key keyName) (fun e => console_log e).

(* ===================================================================== *)
(** ** The page as a machine of events *)
(* ===================================================================== *)

Inductive event : Type :=
| DOMContentLoaded
| ClickEvent (n : node)
| KeyDown (key : jsstring).

Definition deliver (g : globals) (w : world) (ev : event) : world :=
  match ev with
  | DOMContentLoaded => run_listener on_DOMContentLoaded w
  | ClickEvent n => dispatch_click n w
  | KeyDown key => run_listener (on_keydown g key) w
  end.

(** The page [d] after the events [evs]: the script loads on [d], then the
    events arrive in order. *)
Definition run (d : document) (evs : list event) : world :=
  fold_left (deliver (script_load d)) evs (initial_world d).

(** The submit control [s] is enabled. *)
Definition enabled (s : node) (w : world) : bool :=
  match nth_error (dom w) s with
  | Some e => negb (disabled e)
  | None => false
  end.

(* ===================================================================== *)
(** ** What the properties are stated with *)
(* ===================================================================== *)

(** The computation [m] keeps the relation [R] between the world before
    and the world after, whether it returns or throws. *)
Definition keeps (R : world -> world -> Prop) {A} (m : M A) : Prop :=
  forall w, R w (snd (m w)).

(** The three arrow keys. *)
Definition is_arrow (key : jsstring) : Prop :=
  key = units "ArrowDown" \/ key = units "ArrowLeft" \/ key = units "ArrowRight".

(** What the script never writes: everything but the [disabled] flag. *)
Definition fixed_part (e : element) : string * string * string * bool :=
  (el_id e, localName e, el_name e, checked e).

Definition same_page (d d' : document) : Prop :=
  map fixed_part d = map fixed_part d'.

(** The [checked] property of the element at [n] ([false] off the page). *)
Definition checked_at (d : document) (n : node) : bool :=
  match nth_error d n with
  | Some e => checked e
  | None => false
  end.

(** The script never writes anything but [disabled] flags. *)
Definition page_kept (w w' : world) : Prop := same_page (dom w') (dom w).

(** No node that is enabled becomes disabled. *)
Definition enabled_kept (w w' : world) : Prop :=
  forall s, enabled s w = true -> enabled s w' = true.

(** No listener is ever removed. *)
Definition listeners_kept (w w' : world) : Prop :=
  incl (listeners w) (listeners w').

(** No call of [focus()] or [click()] is recorded. *)
Definition calls_kept (w w' : world) : Prop := calls w' = calls w.

(** The world after [focus()] then [click()] on node [n]. *)
Definition fire (n : node) (w : world) : world :=
  snd (click (Some n) (snd (focus (Some n) w))).

(** The decision table of the specification (section 4.2), read row by row
    with the first match winning: the index of the target in the node list,
    or [None] for no action.  [len] is the length of the node list and
    [half] is [floor(len / 2)]. *)
Definition spec_dispatch_table (len half : Z) (key : jsstring) : option Z :=
  if strict_eq key (units "ArrowDown") && (0 <? len) then Some half
  else if strict_eq key (units "ArrowLeft") && (1 <? len) then Some (half - 1)
  else if strict_eq key (units "ArrowRight") && (2 <? len) then Some (half + 1)
  else
    match parseInt key with
    | Num N => if (0 <? N) && (N <=? len) then Some (N - 1) else None
    | NaN => None
    end.

(** The node the table selects on the page [d], if any. *)
Definition spec_target (d : document) (key : jsstring) : option node :=
  let len := Z.of_nat (List.length (inputButtons d)) in
  match spec_dispatch_table len (len / 2) key with
  | Some i => item (inputButtons d) i
  | None => None
  end.

(** The keydown listener, run for [key] on the page [d] after the events
    [evs], returns normally having called [focus()] and then [click()] on
    node [n], and nothing else. *)
Definition keydown_activates (d : document) (evs : list event)
    (key : jsstring) (n : node) : Prop :=
  let w := run d evs in
  let r := on_keydown (script_load d) key w in
  fst r = Return tt /\ calls (snd r) = calls w ++ [Focus n; Click n].

(** The keydown listener returns normally and leaves the world as it
    was. *)
Definition keydown_ignored (d : document) (evs : list event)
    (key : jsstring) : Prop :=
  on_keydown (script_load d) key (run d evs) = (Return tt, run d evs).

(** The sample pages of the specification: a disabled submit button, then
    a group of five, of one and of no [assessment] radio button. *)
Definition submit_button : element :=
  mkElement "submit" "button" "" false true.

Definition radio (name : string) (c : bool) : element :=
  mkElement "" "input" name c false.

Definition page5 : document :=
  submit_button :: repeat (radio "assessment" false) 5.

Definition page1 : document := [submit_button; radio "assessment" false].

Definition page0 : document := [submit_button].

(** The body of the loop of lines 20 to 27, for the [submitButton] found on
    line 18. *)
Definition scan_input (submitButton : closure) (radioButton : node) : M unit :=
  c <- get_checked (Some radioButton) ;;
  (if c then set_disabled submitButton false else ret tt) ;;;
  addEventListener radioButton submitButton.

(** A page whose only checked input is outside the [assessment] group. *)
Definition page_with_checkbox : document :=
  [submit_button; radio "assessment" false; radio "assessment" false;
   radio "consent" true].

(** Two pages with no submit control: one radio button, checked or not. *)
Definition page_checked_no_submit : document := [radio "assessment" true].
Definition page_unchecked_no_submit : document := [radio "assessment" false].

(** The listeners a load registers: one on every input, each holding the
    [submitButton] of that load; no other event registers any. *)
Definition registered (c : closure) (inputs : list node) (ev : event)
  : list (node * closure) :=
  match ev with
  | DOMContentLoaded => map (fun n => (n, c)) inputs
  | _ => []
  end.

(** The inputs of [xs] that come before the first checked one. *)
Fixpoint before_first_checked (d : document) (xs : list node) : list node :=
  match xs with
  | [] => []
  | x :: xs' =>
      if checked_at d x then [] else x :: before_first_checked d xs'
  end.

(** The calls of [focus()] then [click()] on each node of [ns] in turn. *)
Definition activations (ns : list node) : list action :=
  flat_map (fun n => [Focus n; Click n]) ns.

(** The number of keydown events among [evs]. *)
Definition keydown_count (evs : list event) : nat :=
  List.length
    (filter (fun ev => match ev with KeyDown _ => true | _ => false end) evs).


(** Three radio buttons, the second one checked, and no submit control. *)
Definition page_second_checked : document :=
  [radio "assessment" false; radio "assessment" true;
   radio "assessment" false].

(* ===================================================================== *)
(** ** Strings and numbers *)
(* ===================================================================== *)

Lemma strict_eq_true_iff (a b : jsstring) : strict_eq a b = true <-> a = b.
Proof.
  revert b; induction a as [|x a IH]; intros [|y b]; simpl;
    split; try congruence; try discriminate.
  - intros H. apply andb_true_iff in H as [H1 H2].
    apply N.eqb_eq in H1. apply IH in H2. congruence.
  - intros H. injection H as -> ->. rewrite N.eqb_refl. simpl.
    apply IH. reflexivity.
Qed.

Lemma strict_eq_refl (a : jsstring) : strict_eq a a = true.
Proof. apply strict_eq_true_iff. reflexivity. Qed.

Lemma parseInt_arrow (key : jsstring) : is_arrow key -> parseInt key = NaN.
Proof. intros [-> | [-> | ->]]; reflexivity. Qed.

(** A key name that starts with neither white space, a sign nor a decimal
    digit does not parse: the names of the keys that are not number keys
    ([Shift], [Enter], [a], [F1], ...) are of this kind. *)
Lemma parseInt_no_number (c : code_unit) (s : jsstring) :
  is_white_space c = false ->
  c <> 43%N -> c <> 45%N ->
  (c < 48 \/ 57 < c)%N ->
  parseInt (c :: s) = NaN.
Proof.
  intros Hw Hp Hm Hd. unfold parseInt. cbn [trim_start]. rewrite Hw.
  assert (Ep : N.eqb c 43 = false) by (apply N.eqb_neq; assumption).
  assert (Em : N.eqb c 45 = false) by (apply N.eqb_neq; assumption).
  rewrite Ep, Em. cbn [orb].
  assert (E48 : forall X (a : code_unit -> jsstring -> X) (b : X),
             match c :: s with
             | 48%N :: x :: s' => a x s'
             | _ => b
             end = b).
  { intros X a b. destruct c as [|p]; [reflexivity|].
    do 6 (destruct p as [p|p|]; try reflexivity).
    destruct Hd as [Hd | Hd]; lia. }
  rewrite E48. cbn [leading_digits].
  assert (Ed : forall d, digit_value c = Some d -> (d <? 10) = false).
  { unfold digit_value. intros d.
    destruct (N.leb 48 c && N.leb c 57)%N eqn:E1.
    - apply andb_true_iff in E1 as [H1 H2].
      apply N.leb_le in H1, H2. destruct Hd as [Hd | Hd]; lia.
    - destruct (N.leb 97 c && N.leb c 122)%N eqn:E2.
      + apply andb_true_iff in E2 as [H1 H2]. apply N.leb_le in H1, H2.
        intros [= <-]. apply Z.ltb_ge. lia.
      + destruct (N.leb 65 c && N.leb c 90)%N eqn:E3; [|discriminate].
        apply andb_true_iff in E3 as [H1 H2]. apply N.leb_le in H1, H2.
        intros [= <-]. apply Z.ltb_ge. lia. }
  destruct (digit_value c) as [d|] eqn:E; [|reflexivity].
  rewrite (Ed d eq_refl). reflexivity.
Qed.

(* ===================================================================== *)
(** ** Queries and updates of the document *)
(* ===================================================================== *)

Lemma same_page_length (d d' : document) :
  same_page d d' -> List.length d = List.length d'.
Proof.
  intros H. apply (f_equal (@List.length _)) in H.
  rewrite !length_map in H. exact H.
Qed.

Lemma update_length (n : node) (f : element -> element) (d : document) :
  List.length (update n f d) = List.length d.
Proof.
  revert n; induction d as [|e d IH]; intros [|n]; simpl; auto.
Qed.

Lemma update_same_page (n : node) (b : bool) (d : document) :
  same_page (update n (with_disabled b) d) d.
Proof.
  unfold same_page. revert n; induction d as [|e d IH]; intros [|n]; simpl;
    try reflexivity.
  f_equal. apply IH.
Qed.

Lemma nth_error_update_eq (n : node) (f : element -> element) (d : document) :
  nth_error (update n f d) n = option_map f (nth_error d n).
Proof.
  revert n; induction d as [|e d IH]; intros [|n]; simpl; auto.
Qed.

Lemma nth_error_update_neq (n m : node) (f : element -> element)
    (d : document) :
  n <> m -> nth_error (update n f d) m = nth_error d m.
Proof.
  revert n m; induction d as [|e d IH]; intros [|n] [|m] H; simpl;
    try reflexivity; try congruence.
  apply IH. congruence.
Qed.

Lemma update_idempotent (n : node) (b : bool) (d : document) :
  update n (with_disabled b) (update n (with_disabled b) d)
  = update n (with_disabled b) d.
Proof.
  revert n; induction d as [|e d IH]; intros [|n]; simpl; try reflexivity.
  f_equal. apply IH.
Qed.

Lemma select_from_same_page (p : element -> bool) (d d' : document) :
  (forall e e', fixed_part e = fixed_part e' -> p e = p e') ->
  same_page d d' ->
  forall k, select_from k p d = select_from k p d'.
Proof.
  intros Hp. unfold same_page.
  revert d'; induction d as [|e d IH]; intros [|e' d'] H k;
    cbn [map select_from] in *; try discriminate; try reflexivity.
  assert (He : fixed_part e = fixed_part e') by congruence.
  assert (Hd : map fixed_part d = map fixed_part d') by congruence.
  rewrite (Hp e e' He), (IH d' Hd). reflexivity.
Qed.

Lemma select_from_bound (p : element -> bool) (d : document) (k n : node) :
  In n (select_from k p d) -> (k <= n < k + List.length d)%nat.
Proof.
  revert k; induction d as [|e d IH]; intros k; simpl; [tauto|].
  destruct (p e); simpl; intros H.
  - destruct H as [<- | H]; [lia|]. apply IH in H. lia.
  - apply IH in H. lia.
Qed.

Lemma getElementById_same_page (d d' : document) (i : string) :
  same_page d d' -> getElementById d i = getElementById d' i.
Proof.
  intros H. unfold getElementById. f_equal.
  apply select_from_same_page; [|exact H].
  unfold fixed_part. intros e e' [= -> _ _ _]. reflexivity.
Qed.

Lemma querySelectorAll_same_page (d d' : document) (t : string) :
  same_page d d' -> querySelectorAll d t = querySelectorAll d' t.
Proof.
  intros H. apply select_from_same_page; [|exact H].
  unfold fixed_part. intros e e' [= _ -> _ _]. reflexivity.
Qed.

Lemma inputButtons_same_page (d d' : document) :
  same_page d d' -> inputButtons d = inputButtons d'.
Proof.
  intros H. apply select_from_same_page; [|exact H].
  unfold fixed_part. intros e e' [= _ _ -> _]. reflexivity.
Qed.

Lemma getElementById_bound (d : document) (i : string) (s : node) :
  getElementById d i = Some s -> (s < List.length d)%nat.
Proof.
  unfold getElementById. intros H.
  destruct (select_from O _ d) as [|x l] eqn:E; [discriminate|].
  injection H as ->.
  assert (Hin : In s (select_from O (fun e => String.eqb (el_id e) i) d))
    by (rewrite E; left; reflexivity).
  apply select_from_bound in Hin. lia.
Qed.

Lemma querySelectorAll_bound (d : document) (t : string) (n : node) :
  In n (querySelectorAll d t) -> (n < List.length d)%nat.
Proof. intros H. apply select_from_bound in H. lia. Qed.

Lemma enabled_set_dom_update (s : node) (w : world) :
  (s < List.length (dom w))%nat ->
  enabled s (set_dom (update s (with_disabled false) (dom w)) w) = true.
Proof.
  intros H. unfold enabled. simpl. rewrite nth_error_update_eq.
  destruct (nth_error (dom w) s) as [e|] eqn:E; [reflexivity|].
  apply nth_error_None in E. lia.
Qed.

Lemma enabled_update_mono (n s : node) (w : world) :
  enabled s w = true ->
  enabled s (set_dom (update n (with_disabled false) (dom w)) w) = true.
Proof.
  unfold enabled. simpl. intros H.
  destruct (Nat.eq_dec n s) as [-> | Hn].
  - rewrite nth_error_update_eq.
    destruct (nth_error (dom w) s); [reflexivity | discriminate].
  - rewrite nth_error_update_neq by exact Hn. exact H.
Qed.

(* ===================================================================== *)
(** ** Relations every operation of the script keeps *)
(* ===================================================================== *)

(** A relation between the world before and the world after that is
    reflexive, transitive and kept by the primitive steps is kept by the
    listeners built from them. *)
Section Preservation.

Variable R : world -> world -> Prop.
Hypothesis R_refl : forall w, R w w.
Hypothesis R_trans : forall w1 w2 w3, R w1 w2 -> R w2 w3 -> R w1 w3.


Lemma keeps_ret {A} (a : A) : keeps R (ret a).
Proof. intros w. apply R_refl. Qed.

Lemma keeps_throw {A} (e : exn) : keeps R (@throw A e).
Proof. intros w. apply R_refl. Qed.

Lemma keeps_gets {A} (f : world -> A) : keeps R (gets f).
Proof. intros w. apply R_refl. Qed.

Lemma keeps_modify (f : world -> world) :
  (forall w, R w (f w)) -> keeps R (modify f).
Proof. intros H w. apply H. Qed.

Lemma keeps_bind {A B} (m : M A) (k : A -> M B) :
  keeps R m -> (forall a, keeps R (k a)) -> keeps R (bind m k).
Proof.
  intros Hm Hk w. unfold bind. specialize (Hm w).
  destruct (m w) as [[a | e] w']; simpl in *; [|exact Hm].
  eapply R_trans; [exact Hm | apply Hk].
Qed.

Lemma keeps_try_catch {A} (m : M A) (h : exn -> M A) :
  keeps R m -> (forall e, keeps R (h e)) -> keeps R (try_catch m h).
Proof.
  intros Hm Hh w. unfold try_catch. specialize (Hm w).
  destruct (m w) as [[a | e] w']; simpl in *; [exact Hm|].
  eapply R_trans; [exact Hm | apply Hh].
Qed.

Lemma keeps_for_of {A} (xs : list A) (body : A -> M unit) :
  (forall x, keeps R (body x)) -> keeps R (for_of xs body).
Proof.
  intros Hb. induction xs as [|x xs IH]; simpl.
  - apply keeps_ret.
  - apply keeps_bind; [apply Hb | intros _; exact IH].
Qed.

Hypothesis R_enable :
  forall n w, R w (set_dom (update n (with_disabled false) (dom w)) w).
Hypothesis R_report : forall e w, R w (report e w).

Lemma keeps_enable (target : option node) : keeps R (set_disabled target false).
Proof.
  destruct target as [n|]; simpl.
  - apply keeps_modify. intros w. apply R_enable.
  - apply keeps_throw.
Qed.

Lemma run_listener_keeps (h : M unit) :
  keeps R h -> forall w, R w (run_listener h w).
Proof.
  intros Hh w. unfold run_listener. specialize (Hh w).
  destruct (h w) as [[[] | e] w']; simpl in *; [exact Hh|].
  eapply R_trans; [exact Hh | apply R_report].
Qed.

Lemma run_click_listeners_keeps (n : node) (ls : list (node * closure))
    (w : world) :
  R w (run_click_listeners n ls w).
Proof.
  unfold run_click_listeners.
  revert w; induction ls as [|[m c] ls IH]; intros w; simpl.
  - apply R_refl.
  - eapply R_trans; [|apply IH].
    destruct (Nat.eqb m n); [|apply R_refl].
    apply run_listener_keeps. apply keeps_enable.
Qed.

Lemma dispatch_click_keeps (n : node) (w : world) : R w (dispatch_click n w).
Proof. apply run_click_listeners_keeps. Qed.

Hypothesis R_listen : forall n c w, R w (add_listener n c w).
Hypothesis R_call : forall a w, R w (record_call a w).
Hypothesis R_log : forall e w, R w (log e w).

Lemma keeps_focus (target : option node) : keeps R (focus target).
Proof.
  destruct target as [n|]; simpl.
  - apply keeps_modify. intros w. apply R_call.
  - apply keeps_throw.
Qed.

Lemma keeps_click (target : option node) : keeps R (click target).
Proof.
  destruct target as [n|]; simpl; [|apply keeps_throw].
  apply keeps_modify. intros w. cbv zeta.
  destruct (disabled_control _ n); [apply R_call|].
  eapply R_trans; [apply R_call | apply dispatch_click_keeps].
Qed.

Lemma keeps_get_checked (target : option node) : keeps R (get_checked target).
Proof.
  destruct target as [n|]; simpl; [|apply keeps_throw].
  intros w. destruct (nth_error (dom w) n); apply R_refl.
Qed.

Lemma keeps_on_DOMContentLoaded : keeps R on_DOMContentLoaded.
Proof.
  unfold on_DOMContentLoaded.
  apply keeps_bind; [apply keeps_gets | intros submitButton].
  apply keeps_bind; [apply keeps_gets | intros radioButtons].
  apply keeps_for_of. intros radioButton.
  apply keeps_bind; [apply keeps_get_checked | intros c].
  apply keeps_bind.
  - destruct c; [apply keeps_enable | apply keeps_ret].
  - intros _. apply keeps_modify. intros w. apply R_listen.
Qed.

Lemma keeps_activate (f : world -> option node) :
  keeps R (inputButton <- gets f ;; focus inputButton ;;; click inputButton).
Proof.
  apply keeps_bind; [apply keeps_gets | intros t].
  apply keeps_bind; [apply keeps_focus | intros _; apply keeps_click].
Qed.

Lemma keeps_on_keydown (g : globals) (key : jsstring) :
  keeps R (on_keydown g key).
Proof.
  unfold on_keydown.
  repeat (match goal with
          | |- keeps R (if ?c then _ else _) => destruct c
          end; [apply keeps_activate|]).
  apply keeps_try_catch.
  - unfold number_key. apply keeps_bind; [apply keeps_gets | intros len].
    destruct (_ && _); [apply keeps_activate | apply keeps_ret].
  - intros e. apply keeps_modify. intros w. apply R_log.
Qed.

Lemma deliver_keeps (g : globals) (w : world) (ev : event) :
  R w (deliver g w ev).
Proof.
  destruct ev as [|n|key]; simpl.
  - apply run_listener_keeps, keeps_on_DOMContentLoaded.
  - apply dispatch_click_keeps.
  - apply run_listener_keeps, keeps_on_keydown.
Qed.

Lemma deliver_all_keeps (g : globals) (evs : list event) (w : world) :
  R w (fold_left (deliver g) evs w).
Proof.
  revert w; induction evs as [|ev evs IH]; intros w; simpl.
  - apply R_refl.
  - eapply R_trans; [apply deliver_keeps | apply IH].
Qed.

End Preservation.

Lemma deliver_all_page (g : globals) (evs : list event) (w : world) :
  page_kept w (fold_left (deliver g) evs w).
Proof.
  apply deliver_all_keeps; unfold page_kept; intros; simpl;
    try reflexivity.
  - unfold same_page in *. congruence.
  - apply update_same_page.
Qed.

Lemma deliver_all_enabled (g : globals) (evs : list event) (w : world) :
  enabled_kept w (fold_left (deliver g) evs w).
Proof.
  apply deliver_all_keeps; unfold enabled_kept; intros; auto.
  apply enabled_update_mono. assumption.
Qed.

Lemma deliver_all_listeners (g : globals) (evs : list event) (w : world) :
  listeners_kept w (fold_left (deliver g) evs w).
Proof.
  apply deliver_all_keeps; unfold listeners_kept; intros; simpl;
    try apply incl_refl.
  - eapply incl_tran; eassumption.
  - apply incl_appl, incl_refl.
Qed.

Lemma dispatch_click_calls (n : node) (w : world) :
  calls (dispatch_click n w) = calls w.
Proof.
  apply (dispatch_click_keeps calls_kept); unfold calls_kept; intros;
    simpl; congruence.
Qed.

Lemma dispatch_click_console (n : node) (w : world) :
  console (dispatch_click n w) = console w.
Proof.
  apply (dispatch_click_keeps (fun w w' => console w' = console w)); intros;
    simpl; congruence.
Qed.

Lemma run_same_page (d : document) (evs : list event) :
  same_page (dom (run d evs)) d.
Proof. apply (deliver_all_page _ evs (initial_world d)). Qed.

(** The constants computed when the script loaded still describe the node
    list after any events. *)
Lemma run_script_load (d : document) (evs : list event) :
  script_load d = script_load (dom (run d evs)).
Proof.
  unfold script_load.
  rewrite (inputButtons_same_page _ _ (run_same_page d evs)). reflexivity.
Qed.

Lemma run_inputButtons (d : document) (evs : list event) :
  inputButtons (dom (run d evs)) = inputButtons d.
Proof. apply inputButtons_same_page, run_same_page. Qed.

(* ===================================================================== *)
(** ** The keydown listener against the decision table *)
(* ===================================================================== *)

Lemma calls_fire (n : node) (w : world) :
  calls (fire n w) = calls w ++ [Focus n; Click n].
Proof.
  unfold fire. simpl.
  destruct (disabled_control _ n); [|rewrite dispatch_click_calls]; simpl;
    rewrite <- app_assoc; reflexivity.
Qed.

Lemma console_fire (n : node) (w : world) : console (fire n w) = console w.
Proof.
  unfold fire. simpl.
  destruct (disabled_control _ n); [|rewrite dispatch_click_console];
    reflexivity.
Qed.

Lemma activate_some (f : world -> option node) (w : world) (n : node) :
  f w = Some n ->
  (inputButton <- gets f ;; focus inputButton ;;; click inputButton) w
  = (Return tt, fire n w).
Proof. intros H. unfold bind, gets. rewrite H. reflexivity. Qed.

Lemma item_in_range (l : list node) (i : Z) :
  0 <= i < Z.of_nat (List.length l) -> exists n, item l i = Some n.
Proof.
  intros H. unfold item.
  destruct (i <? 0) eqn:E; [apply Z.ltb_lt in E; lia|].
  destruct (nth_error l (Z.to_nat i)) as [n|] eqn:En; [eauto|].
  apply nth_error_None in En. lia.
Qed.

(** Every index of the table is inside the node list. *)
Lemma spec_dispatch_table_in_range (len : Z) (key : jsstring) (i : Z) :
  spec_dispatch_table len (len / 2) key = Some i -> 0 <= i < len.
Proof.
  unfold spec_dispatch_table.
  repeat match goal with
         | |- context [if ?c && (?k <? len) then _ else _] =>
             let E := fresh "E" in
             destruct (c && (k <? len)) eqn:E;
             [ apply andb_true_iff in E as [_ E]; apply Z.ltb_lt in E;
               intros [= <-]
             | clear E ]
         end.
  - split; [apply Z.div_pos; lia | apply Z.div_lt_upper_bound; lia].
  - assert (1 <= len / 2) by (apply Z.div_le_lower_bound; lia).
    assert (len / 2 < len) by (apply Z.div_lt_upper_bound; lia). lia.
  - assert (len / 2 + 1 < len); [|split; [|assumption]].
    + assert (2 * (len / 2) <= len) by (apply Z.mul_div_le; lia).
      assert (len / 2 < len - 1); [|lia].
      apply Z.div_lt_upper_bound; lia.
    + assert (0 <= len / 2) by (apply Z.div_pos; lia). lia.
  - destruct (parseInt key) as [|N]; [discriminate|].
    destruct ((0 <? N) && (N <=? len)) eqn:E; [|discriminate].
    apply andb_true_iff in E as [E1 E2].
    apply Z.ltb_lt in E1. apply Z.leb_le in E2. intros [= <-]. lia.
Qed.

(** The listener does what the table says, on a world whose node list the
    script's constants describe. *)
Lemma on_keydown_table (key : jsstring) (w : world) :
  on_keydown (script_load (dom w)) key w
  = (Return tt,
     match spec_target (dom w) key with
     | Some n => fire n w
     | None => w
     end).
Proof.
  unfold spec_target.
  set (len := Z.of_nat (List.length (inputButtons (dom w)))).
  destruct (spec_dispatch_table len (len / 2) key) as [i|] eqn:T.
  - destruct (item_in_range (inputButtons (dom w)) i) as [n Hn].
    { apply (spec_dispatch_table_in_range len key i T). }
    rewrite Hn. revert T.
    unfold on_keydown, number_key, spec_dispatch_table, script_load.
    cbn [inputButtonsLength inputButtonsHalfLength]. fold len.
    repeat match goal with
           | |- context [if ?c && (?k <? len) then Some _ else _] =>
               destruct (c && (k <? len));
               [ intros [= <-]; apply activate_some; exact Hn | ]
           end.
    destruct (parseInt key) as [|N]; [discriminate|].
    cbn [gt le sub item_number]. unfold try_catch, bind at 1, gets at 1.
    fold len.
    destruct ((0 <? N) && (N <=? len)); [|discriminate].
    intros [= <-].
    rewrite (activate_some _ w n); [reflexivity | exact Hn].
  - revert T.
    unfold on_keydown, number_key, spec_dispatch_table, script_load.
    cbn [inputButtonsLength inputButtonsHalfLength]. fold len.
    repeat match goal with
           | |- context [if ?c && (?k <? len) then Some _ else _] =>
               destruct (c && (k <? len)); [discriminate|]
           end.
    unfold try_catch, bind at 1, gets at 1. fold len.
    destruct (parseInt key) as [|N]; cbn [gt le andb]; [reflexivity|].
    destruct ((0 <? N) && (N <=? len)); [discriminate | reflexivity].
Qed.

Lemma on_keydown_run (d : document) (evs : list event) (key : jsstring) :
  on_keydown (script_load d) key (run d evs)
  = (Return tt,
     match spec_target d key with
     | Some n => fire n (run d evs)
     | None => run d evs
     end).
Proof.
  rewrite (run_script_load d evs), on_keydown_table.
  unfold spec_target. rewrite run_inputButtons. reflexivity.
Qed.

Lemma keydown_at_index (d : document) (evs : list event) (key : jsstring)
    (i : Z) :
  let len := Z.of_nat (List.length (inputButtons d)) in
  spec_dispatch_table len (len / 2) key = Some i ->
  exists n, item (inputButtons d) i = Some n /\ keydown_activates d evs key n.
Proof.
  intros len T.
  destruct (item_in_range (inputButtons d) i) as [n Hn].
  { apply (spec_dispatch_table_in_range len key i T). }
  exists n. split; [exact Hn|].
  unfold keydown_activates. cbv zeta. rewrite on_keydown_run.
  unfold spec_target. fold len. rewrite T, Hn. simpl.
  split; [reflexivity | apply calls_fire].
Qed.

Lemma keydown_no_index (d : document) (evs : list event) (key : jsstring) :
  let len := Z.of_nat (List.length (inputButtons d)) in
  spec_dispatch_table len (len / 2) key = None ->
  keydown_ignored d evs key.
Proof.
  intros len T. unfold keydown_ignored. rewrite on_keydown_run.
  unfold spec_target. fold len. rewrite T. reflexivity.
Qed.

Lemma table_ArrowDown (len half : Z) :
  spec_dispatch_table len half (units "ArrowDown")
  = if 0 <? len then Some half else None.
Proof.
  unfold spec_dispatch_table. rewrite strict_eq_refl.
  destruct (0 <? len); reflexivity.
Qed.

Lemma table_ArrowLeft (len half : Z) :
  spec_dispatch_table len half (units "ArrowLeft")
  = if 1 <? len then Some (half - 1) else None.
Proof.
  unfold spec_dispatch_table.
  assert (E : strict_eq (units "ArrowLeft") (units "ArrowDown") = false)
    by reflexivity.
  rewrite E, strict_eq_refl. destruct (1 <? len); reflexivity.
Qed.

Lemma table_ArrowRight (len half : Z) :
  spec_dispatch_table len half (units "ArrowRight")
  = if 2 <? len then Some (half + 1) else None.
Proof.
  unfold spec_dispatch_table.
  assert (E1 : strict_eq (units "ArrowRight") (units "ArrowDown") = false)
    by reflexivity.
  assert (E2 : strict_eq (units "ArrowRight") (units "ArrowLeft") = false)
    by reflexivity.
  rewrite E1, E2, strict_eq_refl. destruct (2 <? len); reflexivity.
Qed.

Lemma table_not_arrow (len half : Z) (key : jsstring) :
  ~ is_arrow key ->
  spec_dispatch_table len half key
  = match parseInt key with
    | Num N => if (0 <? N) && (N <=? len) then Some (N - 1) else None
    | NaN => None
    end.
Proof.
  intros H. unfold spec_dispatch_table, is_arrow in *.
  destruct (strict_eq key (units "ArrowDown")) eqn:E1;
    [apply strict_eq_true_iff in E1; tauto|].
  destruct (strict_eq key (units "ArrowLeft")) eqn:E2;
    [apply strict_eq_true_iff in E2; tauto|].
  destruct (strict_eq key (units "ArrowRight")) eqn:E3;
    [apply strict_eq_true_iff in E3; tauto|].
  reflexivity.
Qed.

Lemma table_number (len half : Z) (key : jsstring) (N : Z) :
  parseInt key = Num N ->
  spec_dispatch_table len half key
  = if (0 <? N) && (N <=? len) then Some (N - 1) else None.
Proof.
  intros H. rewrite table_not_arrow, H; [reflexivity|].
  intros Ha. apply parseInt_arrow in Ha. congruence.
Qed.

(* ===================================================================== *)
(** ** Properties of the keydown listener *)
(* ===================================================================== *)

(** C1.  On every keydown, with [len] the length of the [assessment] node
    list when the script loaded and [half = floor(len / 2)]: [ArrowDown]
    with [len > 0] focuses and clicks the node at index [half], [ArrowLeft]
    with [len > 1] the node at index [half - 1], and [ArrowRight] with
    [len > 2] the node at index [half + 1].  For [len = 5] these are the
    indices 2, 1 and 3. *)
Theorem arrow_keys_activate_around_half (d : document) (evs : list event) :
  let inputs := inputButtons d in
  let len := Z.of_nat (List.length inputs) in
  let half := len / 2 in
  (0 < len ->
   exists n, item inputs half = Some n
             /\ keydown_activates d evs (units "ArrowDown") n)
  /\ (1 < len ->
      exists n, item inputs (half - 1) = Some n
                /\ keydown_activates d evs (units "ArrowLeft") n)
  /\ (2 < len ->
      exists n, item inputs (half + 1) = Some n
                /\ keydown_activates d evs (units "ArrowRight") n)
  /\ (len = 5 -> half = 2 /\ half - 1 = 1 /\ half + 1 = 3).
Proof.
  cbv zeta. split; [|split; [|split]]; intros H.
  - apply keydown_at_index. rewrite table_ArrowDown.
    apply Z.ltb_lt in H. rewrite H. reflexivity.
  - apply keydown_at_index. rewrite table_ArrowLeft.
    apply Z.ltb_lt in H. rewrite H. reflexivity.
  - apply keydown_at_index. rewrite table_ArrowRight.
    apply Z.ltb_lt in H. rewrite H. reflexivity.
  - rewrite H. repeat split.
Qed.

(** On the page with five radio buttons (nodes 1 to 5 after the submit
    button), [ArrowDown] activates index 2 (node 3), [ArrowLeft] index 1
    (node 2) and [ArrowRight] index 3 (node 4). *)
Lemma arrow_keys_on_page5 :
  keydown_activates page5 [DOMContentLoaded] (units "ArrowDown") 3%nat
  /\ keydown_activates page5 [DOMContentLoaded] (units "ArrowLeft") 2%nat
  /\ keydown_activates page5 [DOMContentLoaded] (units "ArrowRight") 4%nat.
Proof.
  destruct (arrow_keys_activate_around_half page5 [DOMContentLoaded])
    as (Hd & Hl & Hr & _).
  destruct Hd as (n1 & E1 & A1); [reflexivity|].
  destruct Hl as (n2 & E2 & A2); [reflexivity|].
  destruct Hr as (n3 & E3 & A3); [reflexivity|].
  injection E1 as <-. injection E2 as <-. injection E3 as <-.
  exact (conj A1 (conj A2 A3)).
Defined.

(** C2.  On every keydown whose key parses as an integer [N]: when
    [0 < N <= len] the listener focuses and clicks the node at index
    [N - 1]; when [N] is outside that range, as for ["9"] with five inputs
    or for ["0"], it focuses and clicks nothing.  (No arrow key parses as
    an integer, so the keys concerned are none of the three arrow keys.) *)
Theorem number_key_activates_its_input (d : document) (evs : list event)
    (key : jsstring) (N : Z) :
  parseInt key = Num N ->
  let inputs := inputButtons d in
  let len := Z.of_nat (List.length inputs) in
  ~ is_arrow key
  /\ (0 < N <= len ->
      exists n, item inputs (N - 1) = Some n
                /\ keydown_activates d evs key n)
  /\ (~ 0 < N <= len -> keydown_ignored d evs key).
Proof.
  intros HN. cbv zeta. split; [|split].
  - intros Ha. apply parseInt_arrow in Ha. congruence.
  - intros [H1 H2]. apply keydown_at_index.
    rewrite (table_number _ _ _ N HN).
    apply Z.ltb_lt in H1. apply Z.leb_le in H2. rewrite H1, H2. reflexivity.
  - intros H. apply keydown_no_index.
    rewrite (table_number _ _ _ N HN).
    destruct (0 <? N) eqn:E1; [|reflexivity].
    destruct (N <=? _) eqn:E2; [|reflexivity].
    apply Z.ltb_lt in E1. apply Z.leb_le in E2. lia.
Qed.

(** With five inputs, ["3"] activates index 2 (node 3), and ["9"] and ["0"]
    activate nothing. *)
Lemma number_keys_on_page5 :
  keydown_activates page5 [DOMContentLoaded] (units "3") 3%nat
  /\ keydown_ignored page5 [DOMContentLoaded] (units "9")
  /\ keydown_ignored page5 [DOMContentLoaded] (units "0").
Proof.
  destruct (number_key_activates_its_input page5 [DOMContentLoaded]
              (units "3") 3 eq_refl) as (_ & H3 & _).
  destruct (number_key_activates_its_input page5 [DOMContentLoaded]
              (units "9") 9 eq_refl) as (_ & _ & H9).
  destruct (number_key_activates_its_input page5 [DOMContentLoaded]
              (units "0") 0 eq_refl) as (_ & _ & H0).
  destruct H3 as (n & E & A); [split; [reflexivity | discriminate]|].
  injection E as <-.
  split; [exact A|]. split.
  - apply H9. intros [_ H]. apply H. reflexivity.
  - apply H0. intros [H _]. discriminate H.
Defined.

(** C4.  With one [assessment] input (half = 0), [ArrowDown] focuses and
    clicks the input at index 0 and [ArrowLeft] and [ArrowRight] do
    nothing; with none, no key at all, so no arrow key and no digit key,
    produces a focus or a click. *)
Theorem small_groups (d : document) (evs : list event) :
  (List.length (inputButtons d) = 1%nat ->
   (exists n, item (inputButtons d) 0 = Some n
              /\ keydown_activates d evs (units "ArrowDown") n)
   /\ keydown_ignored d evs (units "ArrowLeft")
   /\ keydown_ignored d evs (units "ArrowRight"))
  /\ (List.length (inputButtons d) = 0%nat ->
      forall key, keydown_ignored d evs key).
Proof.
  split; intros H.
  - split; [|split].
    + apply keydown_at_index. rewrite H. reflexivity.
    + apply keydown_no_index. rewrite H. reflexivity.
    + apply keydown_no_index. rewrite H. reflexivity.
  - intros key. apply keydown_no_index. rewrite H.
    unfold spec_dispatch_table. rewrite !andb_false_r.
    destruct (parseInt key) as [|N]; [reflexivity|].
    destruct (0 <? N) eqn:E1; [|reflexivity].
    destruct (N <=? Z.of_nat 0) eqn:E2; [|reflexivity].
    apply Z.ltb_lt in E1. apply Z.leb_le in E2. simpl in E2. lia.
Qed.

(** On the page with one radio button (node 1), [ArrowDown] activates it
    and the other two arrows do nothing; on the page with none, the arrows
    and the digit ["1"] do nothing. *)
Lemma small_groups_on_page1_and_page0 :
  keydown_activates page1 [DOMContentLoaded] (units "ArrowDown") 1%nat
  /\ keydown_ignored page1 [DOMContentLoaded] (units "ArrowLeft")
  /\ keydown_ignored page1 [DOMContentLoaded] (units "ArrowRight")
  /\ keydown_ignored page0 [DOMContentLoaded] (units "ArrowDown")
  /\ keydown_ignored page0 [DOMContentLoaded] (units "1").
Proof.
  destruct (small_groups page1 [DOMContentLoaded]) as [H1 _].
  destruct (small_groups page0 [DOMContentLoaded]) as [_ H0].
  destruct (H1 eq_refl) as ((n & E & A) & L & R).
  injection E as <-.
  exact (conj A (conj L (conj R (conj (H0 eq_refl _) (H0 eq_refl _))))).
Defined.

(** A key that is no arrow key and does not parse takes the last branch,
    where the [try] block returns at once. *)
Lemma on_keydown_no_number (g : globals) (key : jsstring) (w : world) :
  parseInt key = NaN -> ~ is_arrow key ->
  number_key key w = (Return tt, w)
  /\ on_keydown g key w = (Return tt, w).
Proof.
  intros HN Ha. unfold is_arrow in Ha.
  assert (Hn : number_key key w = (Return tt, w)).
  { unfold number_key. rewrite HN. reflexivity. }
  split; [exact Hn|]. unfold on_keydown.
  destruct (strict_eq key (units "ArrowDown")) eqn:E1;
    [apply strict_eq_true_iff in E1; tauto|].
  destruct (strict_eq key (units "ArrowLeft")) eqn:E2;
    [apply strict_eq_true_iff in E2; tauto|].
  destruct (strict_eq key (units "ArrowRight")) eqn:E3;
    [apply strict_eq_true_iff in E3; tauto|].
  cbn [andb]. unfold try_catch. rewrite Hn. reflexivity.
Qed.

(** C5, as the code has it.  For every keydown whose key is not numeric
    and is none of the three arrow keys, [parseInt] yields [NaN] and throws
    nothing: the [try] block returns normally, the [catch] block is not
    entered, nothing is written to the console, and the listener returns
    normally, so nothing propagates to the event loop. *)
Theorem parse_failure_is_silent (g : globals) (key : jsstring) (w : world) :
  parseInt key = NaN -> ~ is_arrow key ->
  fst (number_key key w) = Return tt
  /\ fst (on_keydown g key w) = Return tt
  /\ console (snd (on_keydown g key w)) = console w
  /\ reported (deliver g w (KeyDown key)) = reported w.
Proof.
  intros HN Ha.
  destruct (on_keydown_no_number g key w HN Ha) as [Hn Hk].
  simpl. unfold run_listener. rewrite Hn, Hk. repeat split.
Qed.

Lemma arrow_names_differ (key : jsstring) (c : code_unit) (s : jsstring) :
  key = c :: s -> c <> 65%N -> ~ is_arrow key.
Proof. intros -> Hc [H | [H | H]]; injection H as H _; congruence. Qed.

(** [Shift] is a key of the kind: it starts with [S], which is no digit, no
    sign and no white space, and it is no arrow key. *)
Lemma Shift_is_no_number :
  parseInt (units "Shift") = NaN /\ ~ is_arrow (units "Shift").
Proof.
  split.
  - apply (parseInt_no_number 83%N (units "hift")); try discriminate.
    + reflexivity.
    + right. reflexivity.
  - apply (arrow_names_differ _ 83%N (units "hift") eq_refl). discriminate.
Qed.

(** [Shift] on the page with five inputs, after the page has loaded. *)
Lemma parse_failure_is_silent_on_Shift :
  parseInt (units "Shift") = NaN
  /\ fst (on_keydown (script_load page5) (units "Shift")
            (run page5 [DOMContentLoaded])) = Return tt
  /\ console (snd (on_keydown (script_load page5) (units "Shift")
                     (run page5 [DOMContentLoaded])))
     = console (run page5 [DOMContentLoaded]).
Proof.
  destruct Shift_is_no_number as [HN Ha].
  destruct (parse_failure_is_silent (script_load page5) (units "Shift")
              (run page5 [DOMContentLoaded]) HN Ha) as (_ & H1 & H2 & _).
  exact (conj HN (conj H1 H2)).
Defined.

(** C5, as the specification has it, fails: [Shift] does not parse, and
    after the listener has run the console holds nothing. *)
Lemma parse_failure_is_not_logged :
  parseInt (units "Shift") = NaN
  /\ console (snd (on_keydown (script_load page5) (units "Shift")
                     (run page5 [DOMContentLoaded]))) = [].
Proof. split; reflexivity. Qed.

(** C6.  For every keydown whose key is not numeric and is none of the
    three arrow keys, the listener focuses and clicks no input, raises no
    fault, caught or not, and leaves the document, so the enabled state of
    the submit control, as it was. *)
Theorem other_keys_do_nothing (g : globals) (key : jsstring) (w : world) :
  parseInt key = NaN -> ~ is_arrow key ->
  let w' := deliver g w (KeyDown key) in
  fst (on_keydown g key w) = Return tt
  /\ calls w' = calls w
  /\ reported w' = reported w
  /\ console w' = console w
  /\ dom w' = dom w
  /\ (forall s, enabled s w' = enabled s w).
Proof.
  intros HN Ha.
  destruct (on_keydown_no_number g key w HN Ha) as [_ Hk].
  simpl. unfold run_listener. rewrite Hk. repeat split.
Qed.

(** [Shift] on the page with five inputs: nothing is called and the submit
    button (node 0) stays disabled. *)
Lemma Shift_does_nothing :
  calls (deliver (script_load page5) (initial_world page5)
           (KeyDown (units "Shift"))) = []
  /\ enabled 0%nat (deliver (script_load page5) (initial_world page5)
                  (KeyDown (units "Shift"))) = false.
Proof.
  destruct Shift_is_no_number as [HN Ha].
  destruct (other_keys_do_nothing (script_load page5) (units "Shift")
              (initial_world page5) HN Ha) as (_ & H1 & _ & _ & _ & H2).
  split; [exact H1 | exact (H2 O)].
Defined.

(** C9.  On every keydown the listener returns normally and the calls it
    makes are those of the decision table read in order, first match
    winning: none when no row matches, and otherwise [focus()] and then
    [click()] on the one node the first matching row selects. *)
Theorem keydown_first_match_focus_then_click (d : document)
    (evs : list event) (key : jsstring) :
  let w := run d evs in
  let r := on_keydown (script_load d) key w in
  fst r = Return tt
  /\ calls (snd r)
     = calls w ++ match spec_target d key with
                  | Some n => [Focus n; Click n]
                  | None => []
                  end.
Proof.
  cbv zeta. rewrite on_keydown_run. split; [reflexivity|].
  destruct (spec_target d key) as [n|]; simpl.
  - apply calls_fire.
  - rewrite app_nil_r. reflexivity.
Qed.

(** C10.  Under the guard of its branch every index the listener uses is
    inside the node list: [half < len] when [len > 0], [half - 1 >= 0] when
    [len > 1], [half + 1 < len] when [len > 2], and [0 <= N - 1 < len] when
    [0 < N <= len]; the node list has a node at each of them, and so the
    listener never throws and its [catch] block is never entered. *)
Theorem keydown_indices_in_bounds (d : document) :
  let inputs := inputButtons d in
  let len := inputButtonsLength (script_load d) in
  let half := inputButtonsHalfLength (script_load d) in
  (0 < len -> half < len /\ exists n, item inputs half = Some n)
  /\ (1 < len -> 0 <= half - 1 /\ exists n, item inputs (half - 1) = Some n)
  /\ (2 < len -> half + 1 < len /\ exists n, item inputs (half + 1) = Some n)
  /\ (forall N, 0 < N <= len ->
        0 <= N - 1 < len /\ exists n, item inputs (N - 1) = Some n)
  /\ (forall evs key,
        fst (on_keydown (script_load d) key (run d evs)) = Return tt
        /\ console (snd (on_keydown (script_load d) key (run d evs)))
           = console (run d evs)).
Proof.
  cbv zeta.
  assert (Hk : forall evs key,
             fst (on_keydown (script_load d) key (run d evs)) = Return tt
             /\ console (snd (on_keydown (script_load d) key (run d evs)))
                = console (run d evs)).
  { intros evs key. rewrite on_keydown_run. split; [reflexivity|]. simpl.
    destruct (spec_target d key); [apply console_fire | reflexivity]. }
  revert Hk. generalize (on_keydown (script_load d)) as handler.
  unfold script_load. cbn [inputButtonsLength inputButtonsHalfLength].
  set (len := Z.of_nat (List.length (inputButtons d))). intros handler Hk.
  assert (Hhalf : 0 < len -> 0 <= len / 2 < len).
  { intros H. split; [apply Z.div_pos; lia | apply Z.div_lt_upper_bound; lia]. }
  assert (Hleft : 1 < len -> 1 <= len / 2).
  { intros H. apply Z.div_le_lower_bound; lia. }
  assert (Hright : 2 < len -> len / 2 + 1 < len).
  { intros H. assert (len / 2 < len - 1); [|lia].
    apply Z.div_lt_upper_bound; lia. }
  split; [|split; [|split; [|split; [|exact Hk]]]].
  - intros H. split; [lia|]. apply item_in_range. fold len. lia.
  - intros H. split; [lia|]. apply item_in_range. fold len. lia.
  - intros H. split; [lia|]. apply item_in_range. fold len. lia.
  - intros N H. split; [lia|]. apply item_in_range. fold len. lia.
Qed.

(* ===================================================================== *)
(** ** Properties of the initialization listener *)
(* ===================================================================== *)

Lemma on_DOMContentLoaded_unfold (w : world) :
  on_DOMContentLoaded w
  = for_of (querySelectorAll (dom w) "input")
      (scan_input (getElementById (dom w) "submit")) w.
Proof. reflexivity. Qed.

Lemma get_checked_on_page (n : node) (w : world) :
  (n < List.length (dom w))%nat ->
  get_checked (Some n) w = (Return (checked_at (dom w) n), w).
Proof.
  intros H. unfold get_checked, checked_at.
  destruct (nth_error (dom w) n) as [e|] eqn:E; [reflexivity|].
  apply nth_error_None in E. lia.
Qed.

Lemma scan_input_with_submit (s x : node) (w : world) :
  (x < List.length (dom w))%nat ->
  scan_input (Some s) x w
  = (Return tt,
     add_listener x (Some s)
       (if checked_at (dom w) x
        then set_dom (update s (with_disabled false) (dom w)) w else w)).
Proof.
  intros H. unfold scan_input, bind. rewrite get_checked_on_page by exact H.
  destruct (checked_at (dom w) x); reflexivity.
Qed.

Lemma scan_input_without_submit (x : node) (w : world) :
  (x < List.length (dom w))%nat ->
  scan_input None x w
  = if checked_at (dom w) x then (Throw TypeError, w)
    else (Return tt, add_listener x None w).
Proof.
  intros H. unfold scan_input, bind. rewrite get_checked_on_page by exact H.
  destruct (checked_at (dom w) x); reflexivity.
Qed.

(** With the submit control [s] on the page the scan never throws: it marks
    [s] enabled when it meets a checked input and registers a listener on
    every input. *)
Lemma scan_with_submit (s : node) (xs : list node) (w : world) :
  (forall x, In x xs -> (x < List.length (dom w))%nat) ->
  for_of xs (scan_input (Some s)) w
  = (Return tt,
     mkWorld
       (if existsb (checked_at (dom w)) xs
        then update s (with_disabled false) (dom w) else dom w)
       (listeners w ++ map (fun x => (x, Some s)) xs)
       (calls w) (console w) (reported w)).
Proof.
  revert w; induction xs as [|x xs IH]; intros w Hb.
  - destruct w; simpl. rewrite app_nil_r. reflexivity.
  - cbn [for_of existsb map]. unfold bind.
    rewrite scan_input_with_submit by (apply Hb; left; reflexivity).
    destruct (checked_at (dom w) x) eqn:C; rewrite IH.
    + cbn [dom listeners calls console reported set_dom add_listener orb].
      rewrite update_idempotent, <- app_assoc.
      destruct (existsb _ xs); reflexivity.
    + cbn [dom set_dom add_listener]. intros y Hy.
      rewrite update_length. apply Hb. right. exact Hy.
    + cbn [dom listeners calls console reported add_listener orb].
      rewrite <- app_assoc. reflexivity.
    + cbn [dom add_listener]. intros y Hy. apply Hb. right. exact Hy.
Qed.

(** With no submit control the scan throws at the first checked input; it
    never writes to the document. *)
Lemma scan_without_submit (xs : list node) (w : world) :
  (forall x, In x xs -> (x < List.length (dom w))%nat) ->
  dom (snd (for_of xs (scan_input None) w)) = dom w
  /\ (existsb (checked_at (dom w)) xs = true ->
      fst (for_of xs (scan_input None) w) = Throw TypeError)
  /\ (existsb (checked_at (dom w)) xs = false ->
      for_of xs (scan_input None) w
      = (Return tt,
         mkWorld (dom w) (listeners w ++ map (fun x => (x, None)) xs)
           (calls w) (console w) (reported w))).
Proof.
  revert w; induction xs as [|x xs IH]; intros w Hb.
  - split; [reflexivity|]. split; [discriminate|]. intros _.
    destruct w; simpl. rewrite app_nil_r. reflexivity.
  - cbn [for_of existsb map]. unfold bind.
    rewrite scan_input_without_submit by (apply Hb; left; reflexivity).
    destruct (checked_at (dom w) x) eqn:C.
    + cbn [fst snd orb]. split; [reflexivity|].
      split; [reflexivity | discriminate].
    + destruct (IH (add_listener x None w)) as (Hd & Ht & Hf).
      { cbn [dom add_listener]. intros y Hy. apply Hb. right. exact Hy. }
      cbn [dom add_listener orb] in *.
      split; [exact Hd|]. split; [exact Ht|].
      intros E. rewrite (Hf E).
      cbn [dom listeners calls console reported add_listener].
      rewrite <- app_assoc. reflexivity.
Qed.

Lemma on_DOMContentLoaded_with_submit (s : node) (w : world) :
  getElementById (dom w) "submit" = Some s ->
  on_DOMContentLoaded w
  = (Return tt,
     mkWorld
       (if existsb (checked_at (dom w)) (querySelectorAll (dom w) "input")
        then update s (with_disabled false) (dom w) else dom w)
       (listeners w
        ++ map (fun x => (x, Some s)) (querySelectorAll (dom w) "input"))
       (calls w) (console w) (reported w)).
Proof.
  intros H. rewrite on_DOMContentLoaded_unfold, H.
  apply scan_with_submit. intros x. apply querySelectorAll_bound.
Qed.

Lemma run_click_listeners_enables (n s : node) (ls : list (node * closure))
    (w : world) :
  In (n, Some s) ls -> (s < List.length (dom w))%nat ->
  enabled s (run_click_listeners n ls w) = true.
Proof.
  unfold run_click_listeners.
  revert w; induction ls as [|[m c] ls IH]; intros w Hin Hs; [destruct Hin|].
  cbn [fold_left fst snd]. destruct Hin as [E | Hin].
  - injection E as -> ->. rewrite Nat.eqb_refl.
    apply (run_click_listeners_keeps enabled_kept); unfold enabled_kept;
      intros; auto.
    + apply enabled_update_mono. assumption.
    + apply enabled_set_dom_update. exact Hs.
  - apply IH; [exact Hin|].
    destruct (Nat.eqb m n); [|exact Hs].
    assert (P : page_kept w (run_listener (on_click c) w)).
    { apply run_listener_keeps; unfold page_kept; intros; simpl;
        try reflexivity.
      - unfold same_page in *. congruence.
      - apply keeps_enable; unfold page_kept; intros; simpl;
          try reflexivity. apply update_same_page. }
    rewrite (same_page_length _ _ P). exact Hs.
Qed.

Lemma run_app (d : document) (evs evs' : list event) :
  run d (evs ++ evs') = fold_left (deliver (script_load d)) evs' (run d evs).
Proof. unfold run. apply fold_left_app. Qed.

(** Once the page has loaded, every input carries a click listener that
    holds the submit control. *)
Lemma listeners_after_load (d : document) (s n : node) (evs : list event) :
  getElementById d "submit" = Some s ->
  In DOMContentLoaded evs ->
  In n (querySelectorAll d "input") ->
  In (n, Some s) (listeners (run d evs)).
Proof.
  intros Hs Hev Hn. apply in_split in Hev as (pre & post & ->).
  change (DOMContentLoaded :: post) with ([DOMContentLoaded] ++ post).
  rewrite !run_app.
  apply (deliver_all_listeners (script_load d) post). cbn [fold_left deliver].
  pose proof (run_same_page d pre) as P.
  unfold run_listener.
  rewrite (on_DOMContentLoaded_with_submit s)
    by (rewrite (getElementById_same_page _ _ _ P); exact Hs).
  cbn [listeners]. apply in_or_app. right.
  rewrite (querySelectorAll_same_page _ _ _ P).
  apply (in_map (fun x => (x, Some s))). exact Hn.
Qed.

(** C3.  With the submit control [s] on the page: the click listener of
    the script enables [s] whenever it runs; once the page has loaded, every
    click on any input leaves [s] enabled; and no event the script handles
    (loading, a click, a keydown), in any world, disables [s] once it is
    enabled, so it stays enabled through any further events. *)
Theorem submit_enabled_is_monotone (d : document) (s : node) :
  getElementById d "submit" = Some s ->
  (forall evs, enabled s (run_listener (on_click (Some s)) (run d evs)) = true)
  /\ (forall evs n,
         In DOMContentLoaded evs -> In n (querySelectorAll d "input") ->
         enabled s (run d (evs ++ [ClickEvent n])) = true)
  /\ (forall g w ev, enabled s w = true -> enabled s (deliver g w ev) = true)
  /\ (forall evs evs',
         enabled s (run d evs) = true -> enabled s (run d (evs ++ evs')) = true).
Proof.
  intros Hs.
  assert (Hb : forall evs, (s < List.length (dom (run d evs)))%nat).
  { intros evs. rewrite (same_page_length _ _ (run_same_page d evs)).
    apply (getElementById_bound d "submit"). exact Hs. }
  split; [|split; [|split]].
  - intros evs. apply enabled_set_dom_update, Hb.
  - intros evs n Hev Hn. rewrite run_app. cbn [fold_left deliver].
    apply run_click_listeners_enables; [|apply Hb].
    apply listeners_after_load; assumption.
  - intros g w ev H.
    apply (deliver_all_enabled g [ev] w). exact H.
  - intros evs evs' H. rewrite run_app.
    apply (deliver_all_enabled _ evs' (run d evs)). exact H.
Qed.

(** On the page with five inputs the submit button (node 0) starts
    disabled; after loading, a click on the first radio button (node 1)
    enables it, and it is still enabled after a [Shift], a ["9"] and an
    [ArrowLeft]. *)
Lemma submit_enabled_on_page5 :
  enabled 0%nat (run page5 [DOMContentLoaded]) = false
  /\ enabled 0%nat (run page5 ([DOMContentLoaded] ++ [ClickEvent 1%nat])) = true
  /\ enabled 0%nat
       (run page5
          (([DOMContentLoaded] ++ [ClickEvent 1%nat])
           ++ [KeyDown (units "Shift"); KeyDown (units "9");
               KeyDown (units "ArrowLeft")])) = true.
Proof.
  destruct (submit_enabled_is_monotone page5 0%nat eq_refl)
    as (_ & Hc & _ & Hm).
  assert (H1 : enabled 0%nat (run page5 ([DOMContentLoaded] ++ [ClickEvent 1%nat]))
               = true).
  { apply Hc; left; reflexivity. }
  split; [reflexivity|]. split; [exact H1|]. apply Hm. exact H1.
Defined.

(** C7.  When the initialization listener runs on a document that has the
    submit control [s] and an input element, of any name, whose [checked]
    is true, it completes and [s] is enabled right after. *)
Theorem checked_input_enables_submit (w : world) (s n : node) :
  getElementById (dom w) "submit" = Some s ->
  In n (querySelectorAll (dom w) "input") ->
  checked_at (dom w) n = true ->
  fst (on_DOMContentLoaded w) = Return tt
  /\ enabled s (snd (on_DOMContentLoaded w)) = true.
Proof.
  intros Hs Hn Hc. rewrite (on_DOMContentLoaded_with_submit s w Hs).
  split; [reflexivity|].
  assert (E : existsb (checked_at (dom w)) (querySelectorAll (dom w) "input")
              = true).
  { apply existsb_exists. exists n. split; assumption. }
  rewrite E. unfold enabled. cbn [dom snd].
  rewrite nth_error_update_eq.
  destruct (nth_error (dom w) s) as [e|] eqn:En; [reflexivity|].
  apply nth_error_None in En. apply getElementById_bound in Hs. lia.
Qed.

Lemma checked_checkbox_enables_submit :
  enabled 0%nat (initial_world page_with_checkbox) = false
  /\ fst (on_DOMContentLoaded (initial_world page_with_checkbox)) = Return tt
  /\ enabled 0%nat (snd (on_DOMContentLoaded (initial_world page_with_checkbox)))
     = true.
Proof.
  split; [reflexivity|].
  apply (checked_input_enables_submit (initial_world page_with_checkbox)
           0%nat 3%nat).
  - reflexivity.
  - right. right. left. reflexivity.
  - reflexivity.
Defined.

(** C8, as the code has it.  With no element of id [submit] on the page the
    initialization listener is not guarded: it throws a [TypeError] when
    some input is checked, and otherwise completes and registers on every
    input a listener that holds [null]; such a listener throws a
    [TypeError] when it runs.  The document is left as it was. *)
Theorem missing_submit_faults (w : world) :
  getElementById (dom w) "submit" = None ->
  let inputs := querySelectorAll (dom w) "input" in
  (existsb (checked_at (dom w)) inputs = true ->
   fst (on_DOMContentLoaded w) = Throw TypeError)
  /\ (existsb (checked_at (dom w)) inputs = false ->
      fst (on_DOMContentLoaded w) = Return tt
      /\ listeners (snd (on_DOMContentLoaded w))
         = listeners w ++ map (fun n => (n, None)) inputs)
  /\ (forall w', on_click None w' = (Throw TypeError, w'))
  /\ dom (snd (on_DOMContentLoaded w)) = dom w.
Proof.
  intros Hs. cbv zeta. rewrite on_DOMContentLoaded_unfold, Hs.
  destruct (scan_without_submit (querySelectorAll (dom w) "input") w)
    as (Hd & Ht & Hf).
  { intros x. apply querySelectorAll_bound. }
  split; [exact Ht|]. split; [|split; [reflexivity | exact Hd]].
  intros E. rewrite (Hf E). split; reflexivity.
Qed.

Lemma missing_submit_faults_on_load :
  fst (on_DOMContentLoaded (initial_world page_checked_no_submit))
  = Throw TypeError.
Proof.
  destruct (missing_submit_faults (initial_world page_checked_no_submit)
              eq_refl) as (Ht & _).
  apply Ht. reflexivity.
Defined.

(** C8, as the specification has it, fails: with no submit control, loading
    the page with a checked input throws, and on the page with an unchecked
    input the click on it throws in the listener, as the event loop
    reports. *)
Lemma missing_submit_is_not_silent :
  fst (on_DOMContentLoaded (initial_world page_checked_no_submit))
  = Throw TypeError
  /\ reported (run page_checked_no_submit [DOMContentLoaded]) = [TypeError]
  /\ reported (run page_unchecked_no_submit [DOMContentLoaded]) = []
  /\ reported (run page_unchecked_no_submit [DOMContentLoaded; ClickEvent 0%nat])
     = [TypeError].
Proof. repeat split. Qed.

(* ===================================================================== *)
(** ** What a click event does, exactly *)
(* ===================================================================== *)

Lemma world_eta (w : world) :
  mkWorld (dom w) (listeners w) (calls w) (console w) (reported w) = w.
Proof. destruct w; reflexivity. Qed.

(** When every listener holds the submit control [s], a click at [n]
    enables [s] if a listener is registered on [n], and does nothing
    else. *)
Lemma run_click_listeners_with_submit (s n : node)
    (ls : list (node * closure)) (w : world) :
  Forall (fun l => snd l = Some s) ls ->
  run_click_listeners n ls w
  = mkWorld
      (if existsb (fun l => Nat.eqb (fst l) n) ls
       then update s (with_disabled false) (dom w) else dom w)
      (listeners w) (calls w) (console w) (reported w).
Proof.
  unfold run_click_listeners.
  revert w; induction ls as [|[m c] ls IH]; intros w H.
  - simpl. apply eq_sym, world_eta.
  - inversion H as [|? ? Hc Hls]; subst. cbn [snd] in Hc. subst c.
    cbn [fold_left existsb fst snd]. rewrite (IH _ Hls).
    destruct (Nat.eqb m n); cbn [orb]; [|reflexivity].
    unfold run_listener, on_click. cbn.
    rewrite update_idempotent.
    match goal with |- context [if ?b then _ else _] => destruct b end;
      reflexivity.
Qed.


Lemma fire_unfold (n : node) (w : world) :
  fire n w
  = let w1 := record_call (Click n) (record_call (Focus n) w) in
    if disabled_control (dom w) n then w1 else dispatch_click n w1.
Proof. reflexivity. Qed.

Lemma listeners_fire (n : node) (w : world) :
  listeners (fire n w) = listeners w.
Proof.
  rewrite fire_unfold. cbv zeta.
  destruct (disabled_control (dom w) n); [reflexivity|].
  transitivity (listeners (record_call (Click n) (record_call (Focus n) w)));
    [|reflexivity].
  apply (dispatch_click_keeps (fun w w' => listeners w' = listeners w));
    intros; simpl; congruence.
Qed.

(* ===================================================================== *)
(** ** Further properties of the initialization listener *)
(* ===================================================================== *)

Lemma existsb_checked_false (d : document) (xs : list node) :
  (forall n, In n xs -> checked_at d n = false) ->
  existsb (checked_at d) xs = false.
Proof.
  intros H. induction xs as [|x xs IH]; [reflexivity|].
  cbn [existsb]. rewrite (H x) by (left; reflexivity).
  apply IH. intros n Hn. apply H. right. exact Hn.
Qed.

Lemma before_first_checked_all (d : document) (xs : list node) :
  existsb (checked_at d) xs = false -> before_first_checked d xs = xs.
Proof.
  induction xs as [|x xs IH]; [reflexivity|]. cbn [existsb before_first_checked].
  destruct (checked_at d x); [discriminate|]. intros H. rewrite (IH H).
  reflexivity.
Qed.

(** The scan with no submit control, in full: it stops with a [TypeError]
    at the first checked input, having registered a listener on each input
    before it. *)
Lemma scan_without_submit_exact (xs : list node) (w : world) :
  (forall x, In x xs -> (x < List.length (dom w))%nat) ->
  for_of xs (scan_input None) w
  = (if existsb (checked_at (dom w)) xs then Throw TypeError else Return tt,
     mkWorld (dom w)
       (listeners w
        ++ map (fun x => (x, None)) (before_first_checked (dom w) xs))
       (calls w) (console w) (reported w)).
Proof.
  revert w; induction xs as [|x xs IH]; intros w Hb.
  - simpl. rewrite app_nil_r, world_eta. reflexivity.
  - cbn [for_of existsb before_first_checked]. unfold bind.
    rewrite scan_input_without_submit by (apply Hb; left; reflexivity).
    destruct (checked_at (dom w) x) eqn:C; cbn [orb map].
    + rewrite app_nil_r, world_eta. reflexivity.
    + rewrite IH.
      * cbn [dom listeners calls console reported add_listener].
        rewrite <- app_assoc. reflexivity.
      * cbn [dom add_listener]. intros y Hy. apply Hb. right. exact Hy.
Qed.

(** X1.  When no input element is checked the initialization listener
    returns normally and writes nothing to the document, whether the submit
    control is on the page or not: a submit control that is disabled stays
    disabled. *)
Theorem unchecked_load_leaves_document (w : world) :
  (forall n, In n (querySelectorAll (dom w) "input") ->
             checked_at (dom w) n = false) ->
  fst (on_DOMContentLoaded w) = Return tt
  /\ dom (snd (on_DOMContentLoaded w)) = dom w
  /\ (forall s, enabled s (snd (on_DOMContentLoaded w)) = enabled s w).
Proof.
  intros H. apply existsb_checked_false in H.
  assert (E : fst (on_DOMContentLoaded w) = Return tt
              /\ dom (snd (on_DOMContentLoaded w)) = dom w).
  { destruct (getElementById (dom w) "submit") as [s|] eqn:Hs.
    - rewrite (on_DOMContentLoaded_with_submit s w Hs), H.
      split; reflexivity.
    - rewrite on_DOMContentLoaded_unfold, Hs, scan_without_submit_exact, H
        by (intros x; apply querySelectorAll_bound).
      split; reflexivity. }
  destruct E as [E1 E2]. split; [exact E1|]. split; [exact E2|].
  intros s. unfold enabled. rewrite E2. reflexivity.
Qed.

Lemma unchecked_load_on_page5 :
  fst (on_DOMContentLoaded (initial_world page5)) = Return tt
  /\ dom (snd (on_DOMContentLoaded (initial_world page5))) = page5
  /\ enabled 0%nat (snd (on_DOMContentLoaded (initial_world page5))) = false.
Proof.
  destruct (unchecked_load_leaves_document (initial_world page5))
    as (H1 & H2 & H3).
  - intros n Hn. cbn in Hn.
    repeat (destruct Hn as [<- | Hn]; [reflexivity|]). destruct Hn.
  - split; [exact H1|]. split; [exact H2 | exact (H3 O)].
Defined.

(** X9.  With no element of id [submit] on the page, the initialization
    listener registers a listener, holding [null], on each input that comes
    before the first checked one and on no other; it throws a [TypeError]
    exactly when some input is checked. *)
Theorem missing_submit_registers_prefix (w : world) :
  getElementById (dom w) "submit" = None ->
  let inputs := querySelectorAll (dom w) "input" in
  listeners (snd (on_DOMContentLoaded w))
  = listeners w
    ++ map (fun n => (n, None)) (before_first_checked (dom w) inputs)
  /\ fst (on_DOMContentLoaded w)
     = if existsb (checked_at (dom w)) inputs then Throw TypeError
       else Return tt.
Proof.
  intros Hs. cbv zeta.
  rewrite on_DOMContentLoaded_unfold, Hs, scan_without_submit_exact
    by (intros x; apply querySelectorAll_bound).
  split; reflexivity.
Qed.

Lemma missing_submit_registers_first_only :
  listeners (snd (on_DOMContentLoaded (initial_world page_second_checked)))
  = [(0%nat, None)]
  /\ fst (on_DOMContentLoaded (initial_world page_second_checked))
     = Throw TypeError.
Proof.
  exact (missing_submit_registers_prefix (initial_world page_second_checked)
           eq_refl).
Defined.

(* ===================================================================== *)
(** ** The page after any events *)
(* ===================================================================== *)

Lemma run_snoc (d : document) (evs : list event) (ev : event) :
  run d (evs ++ [ev]) = deliver (script_load d) (run d evs) ev.
Proof. rewrite run_app. reflexivity. Qed.

Lemma Forall_registered (c : closure) (inputs : list node)
    (evs : list event) :
  Forall (fun l => snd l = c) (flat_map (registered c inputs) evs).
Proof.
  apply Forall_forall. intros l Hl. apply in_flat_map in Hl as (ev & _ & Hl).
  destruct ev; simpl in Hl; try contradiction.
  apply in_map_iff in Hl as (n & <- & _). reflexivity.
Qed.

Lemma dom_fire_with_submit (s n : node) (w : world) :
  Forall (fun l => snd l = Some s) (listeners w) ->
  dom (fire n w) = dom w
  \/ dom (fire n w) = update s (with_disabled false) (dom w).
Proof.
  intros H. rewrite fire_unfold. cbv zeta.
  destruct (disabled_control (dom w) n); [left; reflexivity|].
  unfold dispatch_click. cbn [listeners record_call].
  rewrite (run_click_listeners_with_submit s n _ _ H). cbn [dom record_call].
  destruct (existsb _ _); [right | left]; reflexivity.
Qed.

Lemma reported_fire_with_submit (s n : node) (w : world) :
  Forall (fun l => snd l = Some s) (listeners w) ->
  reported (fire n w) = reported w.
Proof.
  intros H. rewrite fire_unfold. cbv zeta.
  destruct (disabled_control (dom w) n); [reflexivity|].
  unfold dispatch_click. cbn [listeners record_call].
  rewrite (run_click_listeners_with_submit s n _ _ H). reflexivity.
Qed.

(** The page with the submit control [s], after any events. *)
Lemma run_with_submit (d : document) (s : node) (evs : list event) :
  getElementById d "submit" = Some s ->
  listeners (run d evs)
  = flat_map (registered (Some s) (querySelectorAll d "input")) evs
  /\ (dom (run d evs) = d
      \/ dom (run d evs) = update s (with_disabled false) d)
  /\ reported (run d evs) = [].
Proof.
  intros Hs. induction evs as [|ev evs IH] using rev_ind.
  - split; [reflexivity|]. split; [left|]; reflexivity.
  - destruct IH as (Hl & Hd & Hr). rewrite run_snoc, flat_map_app.
    cbn [flat_map]. rewrite app_nil_r.
    pose proof (run_same_page d evs) as P.
    assert (HF : Forall (fun l => snd l = Some s) (listeners (run d evs))).
    { rewrite Hl. apply Forall_registered. }
    assert (Hu : forall d', (d' = d \/ d' = update s (with_disabled false) d) ->
                 update s (with_disabled false) d' = d
                 \/ update s (with_disabled false) d'
                    = update s (with_disabled false) d).
    { intros d' [-> | ->]; right; [reflexivity | apply update_idempotent]. }
    destruct ev as [|n|key]; cbn [deliver registered].
    + unfold run_listener.
      rewrite (on_DOMContentLoaded_with_submit s)
        by (rewrite (getElementById_same_page _ _ _ P); exact Hs).
      cbn [dom listeners reported].
      rewrite (querySelectorAll_same_page _ _ _ P), Hl.
      split; [reflexivity|]. split; [|exact Hr].
      destruct (existsb _ _); [apply Hu|]; exact Hd.
    + unfold dispatch_click.
      rewrite (run_click_listeners_with_submit s n _ _ HF).
      cbn [dom listeners reported]. rewrite app_nil_r.
      split; [exact Hl|]. split; [|exact Hr].
      destruct (existsb _ _); [apply Hu|]; exact Hd.
    + unfold run_listener. rewrite on_keydown_run. rewrite app_nil_r.
      destruct (spec_target d key) as [n|];
        [|split; [exact Hl | split; [exact Hd | exact Hr]]].
      rewrite listeners_fire, (reported_fire_with_submit s n _ HF).
      split; [exact Hl|]. split; [|exact Hr].
      destruct (dom_fire_with_submit s n _ HF) as [-> | ->];
        [|apply Hu]; exact Hd.
Qed.


Lemma console_run (d : document) (evs : list event) : console (run d evs) = [].
Proof.
  induction evs as [|ev evs IH] using rev_ind; [reflexivity|].
  rewrite run_snoc. destruct ev as [|n|key]; cbn [deliver].
  - rewrite <- IH.
    apply (run_listener_keeps (fun w w' => console w' = console w));
      try (intros; simpl; congruence).
    apply keeps_on_DOMContentLoaded; intros; simpl; congruence.
  - rewrite dispatch_click_console. exact IH.
  - unfold run_listener. rewrite on_keydown_run.
    destruct (spec_target d key); [rewrite console_fire|]; exact IH.
Qed.


(** X2.  With the submit control [s] on the page, the listeners registered
    after any events are those of the loads among them, in order: each load
    registers one listener on every input element, in tree order, holding
    [s]; clicks and keydowns register none and none is ever removed. *)
Theorem load_registers_one_listener_per_input (d : document) (s : node)
    (evs : list event) :
  getElementById d "submit" = Some s ->
  listeners (run d evs)
  = flat_map (registered (Some s) (querySelectorAll d "input")) evs.
Proof. intros Hs. apply (run_with_submit d s evs Hs). Qed.

Lemma listeners_on_page1 :
  listeners (run page1 [KeyDown (units "1"); DOMContentLoaded;
                        ClickEvent 1%nat; KeyDown (units "ArrowDown")])
  = [(1%nat, Some 0%nat)].
Proof.
  exact (load_registers_one_listener_per_input page1 0%nat
           [KeyDown (units "1"); DOMContentLoaded; ClickEvent 1%nat;
            KeyDown (units "ArrowDown")] eq_refl).
Defined.





(** X5.  On any page and after any events nothing has been written to the
    console: the [catch] block of the keydown listener never runs.  With
    the submit control on the page no listener has ever thrown either. *)
Theorem script_never_faults (d : document) (evs : list event) :
  console (run d evs) = []
  /\ (forall s, getElementById d "submit" = Some s -> reported (run d evs) = []).
Proof.
  split; [apply console_run|].
  intros s Hs. apply (run_with_submit d s evs Hs).
Qed.

Lemma spec_target_in (d : document) (key : jsstring) (n : node) :
  spec_target d key = Some n -> In n (inputButtons d).
Proof.
  unfold spec_target.
  destruct (spec_dispatch_table _ _ key) as [i|]; [|discriminate].
  unfold item. destruct (i <? 0); [discriminate|]. apply nth_error_In.
Qed.

(** X6.  After any events the calls the script has made are pairs of
    [focus()] then [click()] on the same node, every such node is one of
    the elements named [assessment], and there is at most one pair for each
    keydown: loads and clicks call nothing. *)
Theorem calls_are_activations_of_the_group (d : document) (evs : list event) :
  exists ns,
    calls (run d evs) = activations ns
    /\ Forall (fun n => In n (inputButtons d)) ns
    /\ (List.length ns <= keydown_count evs)%nat.
Proof.
  induction evs as [|ev evs IH] using rev_ind.
  - exists []. split; [reflexivity|]. split; [constructor | apply Nat.le_refl].
  - destruct IH as (ns & Hc & Hin & Hlen). rewrite run_snoc.
    unfold keydown_count in *. rewrite filter_app, length_app.
    destruct ev as [|n|key]; cbn [deliver filter List.length].
    + exists ns. split; [|split; [exact Hin | lia]]. rewrite <- Hc.
      apply (run_listener_keeps calls_kept); unfold calls_kept;
        try (intros; simpl; congruence).
      apply keeps_on_DOMContentLoaded; intros; simpl; congruence.
    + exists ns. rewrite dispatch_click_calls.
      split; [exact Hc|]. split; [exact Hin | lia].
    + unfold run_listener. rewrite on_keydown_run.
      destruct (spec_target d key) as [n|] eqn:T.
      * exists (ns ++ [n]). rewrite calls_fire, Hc. unfold activations.
        rewrite flat_map_app, length_app. cbn [flat_map List.length app].
        split; [reflexivity|]. split; [|lia].
        apply Forall_app. split; [exact Hin|].
        constructor; [|constructor]. apply (spec_target_in d key n T).
      * exists ns. split; [exact Hc|]. split; [exact Hin | lia].
Qed.

(** X7.  Once the page has loaded, a keydown that activates an input
    element enables the submit control within the same event: [click()]
    runs the click listener of the input before the keydown listener
    returns.  The input must not be a disabled form control, on which
    [click()] dispatches nothing. *)
Theorem keydown_enables_submit (d : document) (s n : node)
    (evs : list event) (key : jsstring) :
  getElementById d "submit" = Some s ->
  In DOMContentLoaded evs ->
  In n (querySelectorAll d "input") ->
  keydown_activates d evs key n ->
  disabled_control (dom (run d evs)) n = false ->
  enabled s (run d (evs ++ [KeyDown key])) = true.
Proof.
  intros Hs Hev Hn [_ Hc] Hdis. revert Hc. rewrite run_snoc.
  cbn [deliver]. unfold run_listener. rewrite on_keydown_run.
  destruct (spec_target d key) as [n'|]; cbn [snd].
  - rewrite calls_fire. intros Hc. apply app_inv_head in Hc.
    injection Hc as ->. rewrite fire_unfold. cbv zeta. rewrite Hdis.
    apply run_click_listeners_enables.
    + apply listeners_after_load; assumption.
    + cbn [dom record_call].
      rewrite (same_page_length _ _ (run_same_page d evs)).
      apply (getElementById_bound d "submit"). exact Hs.
  - intros Hc. apply (f_equal (@List.length _)) in Hc.
    rewrite length_app in Hc. simpl in Hc. lia.
Qed.

Lemma ArrowDown_enables_submit_on_page5 :
  enabled 0%nat (run page5 [DOMContentLoaded]) = false
  /\ enabled 0%nat
       (run page5 ([DOMContentLoaded] ++ [KeyDown (units "ArrowDown")]))
     = true.
Proof.
  split; [reflexivity|].
  apply (keydown_enables_submit page5 0%nat 3%nat).
  - reflexivity.
  - left. reflexivity.
  - right. right. left. reflexivity.
  - split; reflexivity.
  - reflexivity.
Defined.



(* ===================================================================== *)
(** ** Further properties of the keydown listener *)
(* ===================================================================== *)

Lemma parseInt_digit (c : code_unit) :
  (48 <= c <= 57)%N -> parseInt [c] = Num (Z.of_N c - 48).
Proof.
  intros H.
  assert (E : (c = 48 \/ c = 49 \/ c = 50 \/ c = 51 \/ c = 52 \/ c = 53
               \/ c = 54 \/ c = 55 \/ c = 56 \/ c = 57)%N) by lia.
  repeat (destruct E as [-> | E]; [reflexivity|]). subst c. reflexivity.
Qed.

(** X10.  A key whose name is the single digit [k] from 1 to 9 focuses and
    clicks the [k]-th element of the group (index [k - 1]) when the group
    has at least [k] elements, and does nothing when it has fewer; the key
    [0] never does anything. *)
Theorem digit_key_activates_kth_input (d : document) (evs : list event)
    (c : code_unit) :
  (48 <= c <= 57)%N ->
  let k := Z.of_N c - 48 in
  let len := Z.of_nat (List.length (inputButtons d)) in
  (0 < k <= len ->
   exists n, item (inputButtons d) (k - 1) = Some n
             /\ keydown_activates d evs [c] n)
  /\ (k = 0 \/ len < k -> keydown_ignored d evs [c]).
Proof.
  intros Hc. cbv zeta. pose proof (parseInt_digit c Hc) as HN. split.
  - intros [H1 H2]. apply keydown_at_index.
    rewrite (table_number _ _ _ _ HN).
    apply Z.ltb_lt in H1. apply Z.leb_le in H2. rewrite H1, H2. reflexivity.
  - intros H. apply keydown_no_index. rewrite (table_number _ _ _ _ HN).
    destruct (0 <? Z.of_N c - 48) eqn:E1; [|reflexivity].
    destruct (Z.of_N c - 48 <=? _) eqn:E2; [|reflexivity].
    apply Z.ltb_lt in E1. apply Z.leb_le in E2. lia.
Qed.

Lemma digit_keys_on_page5 :
  keydown_activates page5 [DOMContentLoaded] (units "5") 5%nat
  /\ keydown_ignored page5 [DOMContentLoaded] (units "6")
  /\ keydown_ignored page5 [DOMContentLoaded] (units "0").
Proof.
  destruct (digit_key_activates_kth_input page5 [DOMContentLoaded] 53%N)
    as [H5 _]; [split; discriminate|].
  destruct (digit_key_activates_kth_input page5 [DOMContentLoaded] 54%N)
    as [_ H6]; [split; discriminate|].
  destruct (digit_key_activates_kth_input page5 [DOMContentLoaded] 48%N)
    as [_ H0]; [split; discriminate|].
  destruct H5 as (n & E & A); [split; [reflexivity | discriminate]|].
  injection E as <-.
  split; [exact A|]. split.
  - apply H6. right. reflexivity.
  - apply H0. left. reflexivity.
Defined.

Lemma select_from_increasing (p : element -> bool) (d : document) :
  forall k i j a b,
    nth_error (select_from k p d) i = Some a ->
    nth_error (select_from k p d) j = Some b ->
    (i < j)%nat -> (a < b)%nat.
Proof.
  induction d as [|e d IH]; intros k i j a b Ha Hb Hij.
  - destruct i; discriminate.
  - cbn [select_from] in Ha, Hb. destruct (p e).
    + destruct j as [|j]; [lia|]. cbn [nth_error] in Hb.
      destruct i as [|i].
      * injection Ha as <-. apply nth_error_In, select_from_bound in Hb. lia.
      * cbn [nth_error] in Ha. apply (IH (S k) i j); [assumption.. | lia].
    + apply (IH (S k) i j); assumption.
Qed.

Lemma item_increasing (d : document) (i j : Z) (a b : node) :
  item (inputButtons d) i = Some a -> item (inputButtons d) j = Some b ->
  i < j -> (a < b)%nat.
Proof.
  unfold item, inputButtons, getElementsByName.
  destruct (i <? 0) eqn:Ei; [discriminate|].
  destruct (j <? 0) eqn:Ej; [discriminate|].
  apply Z.ltb_ge in Ei, Ej. intros Ha Hb Hij.
  apply (select_from_increasing _ _ _ _ _ _ _ Ha Hb). lia.
Qed.

(** X11.  In a group of three or more the three arrow keys activate three
    different elements, and in document order: the target of [ArrowLeft]
    comes before that of [ArrowDown], which comes before that of
    [ArrowRight]. *)
Theorem arrow_targets_in_document_order (d : document) (evs : list event) :
  2 < Z.of_nat (List.length (inputButtons d)) ->
  exists nl nd nr,
    keydown_activates d evs (units "ArrowLeft") nl
    /\ keydown_activates d evs (units "ArrowDown") nd
    /\ keydown_activates d evs (units "ArrowRight") nr
    /\ (nl < nd < nr)%nat.
Proof.
  intros H. set (len := Z.of_nat (List.length (inputButtons d))) in *.
  destruct (keydown_at_index d evs (units "ArrowLeft") (len / 2 - 1))
    as (nl & El & Al).
  { fold len. rewrite table_ArrowLeft.
    assert (E : (1 <? len) = true) by (apply Z.ltb_lt; lia).
    rewrite E. reflexivity. }
  destruct (keydown_at_index d evs (units "ArrowDown") (len / 2))
    as (nd & Ed & Ad).
  { fold len. rewrite table_ArrowDown.
    assert (E : (0 <? len) = true) by (apply Z.ltb_lt; lia).
    rewrite E. reflexivity. }
  destruct (keydown_at_index d evs (units "ArrowRight") (len / 2 + 1))
    as (nr & Er & Ar).
  { fold len. rewrite table_ArrowRight.
    assert (E : (2 <? len) = true) by (apply Z.ltb_lt; lia).
    rewrite E. reflexivity. }
  exists nl, nd, nr.
  split; [exact Al|]. split; [exact Ad|]. split; [exact Ar|]. split.
  - apply (item_increasing d _ _ _ _ El Ed). lia.
  - apply (item_increasing d _ _ _ _ Ed Er). lia.
Qed.

Lemma arrow_targets_on_page5 :
  exists nl nd nr,
    keydown_activates page5 [] (units "ArrowLeft") nl
    /\ keydown_activates page5 [] (units "ArrowDown") nd
    /\ keydown_activates page5 [] (units "ArrowRight") nr
    /\ (nl < nd < nr)%nat.
Proof. apply (arrow_targets_in_document_order page5 []). reflexivity. Defined.







